(** * Beer consumption dashboard (app.py): the aggregation pipeline

    A shallow embedding of the dashboard script.  A pandas DataFrame is a
    list of row records, a Series a list of (label, value) pairs in the
    order pandas keeps them.  The script is straight-line code over the
    filtered frame; its only partial operations are the positional
    look-ups [iloc[0]] and [iloc[-1]], which raise [IndexError].

    Numbers.  Monetary columns are float64 in pandas.  The views carry,
    compare and sort amounts, and for them an amount is its exact value
    ([Q], compared with [==]); nothing proved about them depends on the
    order in which pandas adds.  Where that order decides the result, the
    total revenue against the revenue by segment, the same statements are
    given on binary64 numbers with pandas' two summation loops, in module
    [Float64].  A division whose divisor is 0 follows NumPy: see
    [float64] and [true_divide].  Dates are calendar days counted from
    1970-01-01, so that [pd.Timedelta(days=n)] is the integer n. *)

From Stdlib Require Import List String Ascii ZArith QArith Bool Lia.
From Stdlib Require Import Permutation Sorted Morphisms Setoid.
From Stdlib Require Import PrimFloat.
Import ListNotations.

Set Implicit Arguments.

Local Open Scope string_scope.
Local Open Scope list_scope.

(* ================================================================= *)
(** ** Labels: values usable as group keys *)

(** pandas groups, de-duplicates and orders by the values of a column.
    A label type comes with the two tests that needs. *)
Class Label (A : Type) : Type := {
  label_eqb : A -> A -> bool;
  label_leb : A -> A -> bool
}.

#[export] Instance string_Label : Label string :=
  {| label_eqb := String.eqb; label_leb := String.leb |}.

#[export] Instance nat_Label : Label nat :=
  {| label_eqb := Nat.eqb; label_leb := Nat.leb |}.

(** A tuple key, as in [groupby([k1, k2])]: compared lexicographically. *)
#[export] Instance pair_Label (A B : Type) `{Label A} `{Label B}
  : Label (A * B) :=
  {| label_eqb := fun p q =>
       label_eqb (fst p) (fst q) && label_eqb (snd p) (snd q);
     label_leb := fun p q =>
       if label_eqb (fst p) (fst q) then label_leb (snd p) (snd q)
       else label_leb (fst p) (fst q) |}.

(** The equality test of a label type decides equality. *)
Class LabelOk (A : Type) `{Label A} : Prop :=
  label_eqb_eq : forall x y : A, label_eqb x y = true <-> x = y.

Arguments LabelOk A {_}.

(* ================================================================= *)
(** ** The pandas operations the script uses *)

Section Pandas.
Context {A : Type} `{Label A}.

(** [Series.isin(values)] at one element. *)
Definition isin (values : list A) (x : A) : bool :=
  existsb (label_eqb x) values.

(** [Series.unique()]: distinct values in order of first appearance. *)
Fixpoint unique (l : list A) : list A :=
  match l with
  | [] => []
  | x :: r => x :: filter (fun y => negb (label_eqb y x)) (unique r)
  end.

(** [Series.nunique()]. *)
Definition nunique (l : list A) : nat := List.length (unique l).

(** Number of entries of [l] equal to [x]. *)
Definition occurrences (x : A) (l : list A) : nat :=
  List.length (filter (label_eqb x) l).
End Pandas.

(** [sort_values]: a sort by the order [le]; insertion keeps the earlier of
    two rows that compare equal in front (pandas leaves the order of ties
    open, nothing below depends on it). *)
Section Sorting.
Context {A : Type} (le : A -> A -> bool).

Fixpoint insert_sorted (x : A) (l : list A) : list A :=
  match l with
  | [] => [x]
  | y :: r => if le x y then x :: y :: r else y :: insert_sorted x r
  end.

Fixpoint sort_values (l : list A) : list A :=
  match l with
  | [] => []
  | x :: r => insert_sorted x (sort_values r)
  end.
End Sorting.

(** Group keys of [groupby(col)]: the distinct labels, ascending. *)
Definition group_keys {A : Type} `{Label A} (col : list A) : list A :=
  sort_values label_leb (unique col).

(** [Series.sum()] of an amount column; the empty sum is 0. *)
Definition Qsum (l : list Q) : Q := fold_right Qplus 0%Q l.

(** [Series.value_counts()]: each distinct label with its number of
    occurrences, most frequent first. *)
Definition value_counts {A : Type} `{Label A} (col : list A)
  : list (A * nat) :=
  sort_values (fun a b => Nat.leb (snd b) (snd a))
              (map (fun k => (k, occurrences k col)) (unique col)).

(* ================================================================= *)
(** ** float64 results *)

(** The value of a float64 expression: a number, an infinity or NaN. *)
Inductive float64 : Type :=
| NaN : float64
| Inf (negative : bool) : float64
| Fin (q : Q) : float64.

(** An np.int64 count divided by a Python int: NumPy's true division.  A
    zero divisor does not raise; 0/0 is NaN and k/0 is an infinity. *)
Definition true_divide (a b : nat) : float64 :=
  match b with
  | O => match a with O => NaN | S _ => Inf false end
  | S _ => Fin (Z.of_nat a # Pos.of_nat b)
  end.

(** Product of a float64 and a positive constant. *)
Definition times (x : float64) (k : positive) : float64 :=
  match x with
  | NaN => NaN
  | Inf s => Inf s
  | Fin q => Fin (q * (Zpos k # 1))
  end.

(** [Series.mean()]: NaN on an empty series. *)
Definition mean (l : list Q) : float64 :=
  match l with
  | [] => NaN
  | _ => Fin (Qsum l / (Z.of_nat (List.length l) # 1))
  end.

(** A float64 that is an ordinary number. *)
Definition is_number (x : float64) : bool :=
  match x with Fin _ => true | _ => false end.

(* ================================================================= *)
(** ** The transaction table *)

Inductive day_name : Type :=
| Monday | Tuesday | Wednesday | Thursday | Friday | Saturday | Sunday.

(** [Series.dt.day_name()]; day 0 (1970-01-01) was a Thursday. *)
Definition day_name_of (date : Z) : day_name :=
  match ((date + 3) mod 7)%Z with
  | 0%Z => Monday | 1%Z => Tuesday | 2%Z => Wednesday | 3%Z => Thursday
  | 4%Z => Friday | 5%Z => Saturday | _ => Sunday
  end.

(** A time of day as read with the format %H:%M:%S. *)
Record time_of_day : Type := { hour : nat; minute : nat; second : nat }.

(** One row of [df], the frame [load_data] returns: the sheet's columns,
    already typed, and the derived Day and Hour.  Reading and parsing the
    spreadsheet is not part of the embedding. *)
Record Row : Type := {
  Date : Z;
  Time : time_of_day;
  Customer_Mobile_No : string;
  POSDescription : string;
  Bill_Month : string;
  Bill_No : string;
  Gross_Amount : Q;
  NetAmount : Q;
  Quantity : Q;
  MenuGroupDescription : string;
  Day : day_name;
  Hour : nat
}.

Definition DataFrame : Type := list Row.

(* ================================================================= *)
(** ** Sidebar filters *)

(** The default of the business-unit selector. *)
Definition default_centre (df : DataFrame) : list string :=
  unique (map POSDescription df).

(** The default of the reporting-period selector. *)
Definition default_month (df : DataFrame) : list string :=
  unique (map Bill_Month df).

Definition filtered_df (df : DataFrame) (centre month : list string)
  : DataFrame :=
  filter (fun r => isin centre (POSDescription r)
                   && isin month (Bill_Month r)) df.

(* ================================================================= *)
(** ** Grouping *)

Section GroupBy.
Context {R K : Type} `{Label K}.

(** The rows of one group. *)
Definition rows_with (key : R -> K) (k : K) (f : list R) : list R :=
  filter (fun r => label_eqb (key r) k) f.

(** [f.groupby(key).agg(...)]: one entry per distinct key, ascending,
    holding the aggregate of the group's rows. *)
Definition groupby {V : Type} (key : R -> K) (agg : list R -> V)
  (f : list R) : list (K * V) :=
  map (fun k => (k, agg (rows_with key k f))) (group_keys (map key f)).
End GroupBy.

(* ================================================================= *)
(** ** KPI metrics *)

Definition total_revenue (f : DataFrame) : Q :=
  Qsum (map Gross_Amount f).

Definition unique_guests (f : DataFrame) : nat :=
  nunique (map Customer_Mobile_No f).

Definition repeat_counts (f : DataFrame) : list (string * nat) :=
  value_counts (map Customer_Mobile_No f).

(** [repeat_counts[repeat_counts > 1].count()] *)
Definition repeat_guests (f : DataFrame) : nat :=
  List.length (filter (fun kv => Nat.ltb 1 (snd kv)) (repeat_counts f)).

Definition repeat_pct (f : DataFrame) : float64 :=
  times (true_divide (repeat_guests f) (unique_guests f)) 100.

(* ================================================================= *)
(** ** Customer segmentation *)

Inductive Segment : Type := VIP | Regular | Occasional.

(** The string the script returns for a segment. *)
Definition segment_label (s : Segment) : string :=
  match s with
  | VIP => "VIP" | Regular => "Regular" | Occasional => "Occasional"
  end.

Definition Segment_eqb (a b : Segment) : bool :=
  match a, b with
  | VIP, VIP | Regular, Regular | Occasional, Occasional => true
  | _, _ => false
  end.

#[export] Instance Segment_Label : Label Segment :=
  {| label_eqb := Segment_eqb;
     label_leb := fun a b => String.leb (segment_label a) (segment_label b) |}.

(** A row of [guest_metrics] before the Segment column is added. *)
Record GuestRow : Type := {
  guest : string;
  visits : nat;
  spend : Q
}.

Definition guest_metrics (f : DataFrame) : list GuestRow :=
  map (fun kv => {| guest := fst kv;
                    visits := fst (snd kv);
                    spend := snd (snd kv) |})
      (groupby Customer_Mobile_No
         (fun g => (nunique (map Bill_No g), Qsum (map Gross_Amount g))) f).

(** [x > y] on amounts. *)
Definition Qgtb (x y : Q) : bool := negb (Qle_bool x y).

Definition segment (row : GuestRow) : Segment :=
  if Qgtb (spend row) 10000 || Nat.leb 6 (visits row) then VIP
  else if Nat.leb 3 (visits row) then Regular
  else Occasional.

(** [guest_metrics] with its Segment column. *)
Definition guest_segments (f : DataFrame) : list (GuestRow * Segment) :=
  map (fun row => (row, segment row)) (guest_metrics f).

Definition seg_counts (f : DataFrame) : list (Segment * nat) :=
  value_counts (map snd (guest_segments f)).

(** [left.merge(right, on='Customer Mobile No')]: the inner join, in the
    order of the left rows; [right] is the two-column projection of the
    filtered frame. *)
Definition merge (left : list (GuestRow * Segment))
  (right : list (string * Q)) : list (GuestRow * Segment * Q) :=
  flat_map (fun l =>
              map (fun r => (l, snd r))
                  (filter (fun r => label_eqb (fst r) (guest (fst l))) right))
           left.

Definition seg_rev (f : DataFrame) : list (Segment * Q) :=
  groupby (fun m => snd (fst m)) (fun g => Qsum (map snd g))
    (merge (guest_segments f)
           (map (fun r => (Customer_Mobile_No r, Gross_Amount r)) f)).

(** The bar of one segment in the revenue chart; a segment without guests
    has no entry in [seg_rev] and no bar. *)
Definition seg_rev_of (f : DataFrame) (s : Segment) : Q :=
  Qsum (map snd (filter (fun kv => label_eqb (fst kv) s) (seg_rev f))).

(* ================================================================= *)
(** ** Centre-wise preference, visit frequency, peak day and hour *)

(** [pd.pivot_table(..., aggfunc=nunique, fill_value=0)]: one line per
    centre, one cell per brand of the filtered frame. *)
Definition heatmap_data (f : DataFrame)
  : list (string * list (string * nat)) :=
  map (fun c =>
         (c, map (fun b =>
                    (b, nunique (map Customer_Mobile_No
                                   (rows_with MenuGroupDescription b
                                      (rows_with POSDescription c f)))))
                 (group_keys (map MenuGroupDescription f))))
      (group_keys (map POSDescription f)).

Definition visit_freq (f : DataFrame) : list (string * nat) :=
  groupby Customer_Mobile_No (fun g => nunique (map Bill_No g)) f.

(** [visit_freq.value_counts().sort_index()] *)
Definition visit_dist (f : DataFrame) : list (nat * nat) :=
  sort_values (fun a b => Nat.leb (fst a) (fst b))
              (value_counts (map snd (visit_freq f))).

Definition day_label (d : day_name) : string :=
  match d with
  | Monday => "Monday" | Tuesday => "Tuesday" | Wednesday => "Wednesday"
  | Thursday => "Thursday" | Friday => "Friday" | Saturday => "Saturday"
  | Sunday => "Sunday"
  end.

#[export] Instance day_Label : Label day_name :=
  {| label_eqb := fun a b => String.eqb (day_label a) (day_label b);
     label_leb := fun a b => String.leb (day_label a) (day_label b) |}.

Definition day_sales (f : DataFrame) : list (day_name * Q) :=
  groupby Day (fun g => Qsum (map NetAmount g)) f.

Definition hour_sales (f : DataFrame) : list (nat * Q) :=
  groupby Hour (fun g => Qsum (map NetAmount g)) f.

(* ================================================================= *)
(** ** Customer lifetime value *)

Record ClvRow : Type := {
  clv_guest : string;
  clv_visits : nat;
  total_spend : Q
}.

Definition clv (f : DataFrame) : list ClvRow :=
  map (fun kv => {| clv_guest := fst kv;
                    clv_visits := fst (snd kv);
                    total_spend := snd (snd kv) |})
      (groupby Customer_Mobile_No
         (fun g => (nunique (map Bill_No g), Qsum (map NetAmount g))) f).

Definition average_clv (f : DataFrame) : float64 :=
  mean (map total_spend (clv f)).

Definition top_clv (f : DataFrame) : list ClvRow :=
  firstn 10 (sort_values (fun a b => Qle_bool (total_spend b) (total_spend a))
                         (clv f)).

(* ================================================================= *)
(** ** Retention *)

(** A pandas timestamp: a day, or NaT ([None]). *)
Definition Timestamp : Type := option Z.

(** [Series.max()] of a date column; NaT when the column is empty. *)
Definition date_max (col : list Z) : Timestamp :=
  match col with
  | [] => None
  | d :: r => Some (fold_left Z.max r d)
  end.

(** [ts - pd.Timedelta(days=n)] *)
Definition minus_days (ts : Timestamp) (n : Z) : Timestamp :=
  option_map (fun d => (d - n)%Z) ts.

(** [a < b] and [a >= b] on timestamps; any comparison with NaT is False. *)
Definition ts_lt (a b : Timestamp) : bool :=
  match a, b with
  | Some x, Some y => Z.ltb x y
  | _, _ => false
  end.

Definition ts_ge (a b : Timestamp) : bool :=
  match a, b with
  | Some x, Some y => Z.leb y x
  | _, _ => false
  end.

Definition last_visit (f : DataFrame) : list (string * Timestamp) :=
  groupby Customer_Mobile_No (fun g => date_max (map Date g)) f.

Definition inactive (f : DataFrame) : list (string * Timestamp) :=
  filter (fun lv => ts_lt (snd lv) (minus_days (date_max (map Date f)) 30))
         (last_visit f).

Definition recent (f : DataFrame) : list (string * Timestamp) :=
  filter (fun lv => ts_ge (snd lv) (minus_days (date_max (map Date f)) 7))
         (last_visit f).

(** The words of the retention rules, stated on the rows themselves. *)

(** [g] is the latest date of the frame. *)
Definition max_date_is (f : DataFrame) (g : Z) : Prop :=
  (exists r, In r f /\ Date r = g) /\
  (forall r, In r f -> (Date r <= g)%Z).

(** [d] is the latest date among the rows of guest [c]. *)
Definition last_visit_is (f : DataFrame) (c : string) (d : Z) : Prop :=
  (exists r, In r f /\ Customer_Mobile_No r = c /\ Date r = d) /\
  (forall r, In r f -> Customer_Mobile_No r = c -> (Date r <= d)%Z).

(* ================================================================= *)
(** ** Brand insights *)

Record BrandRow : Type := {
  brand : string;
  Unique_Guests : nat;
  Quantity_Sold : Q;
  Revenue : Q
}.

Definition brand_summary (f : DataFrame) : list BrandRow :=
  sort_values (fun a b => Qle_bool (Revenue b) (Revenue a))
    (map (fun kv => {| brand := fst kv;
                       Unique_Guests := fst (fst (snd kv));
                       Quantity_Sold := snd (fst (snd kv));
                       Revenue := snd (snd kv) |})
         (groupby MenuGroupDescription
            (fun g => (nunique (map Customer_Mobile_No g),
                       Qsum (map Quantity g),
                       Qsum (map Gross_Amount g))) f)).

(** Python exceptions the script can raise. *)
Inductive exn : Type :=
| IndexError (message : string).

(** [frame.iloc[i]]: row [i], counted from the end when [i] is negative;
    out of range it raises. *)
Definition iloc {R : Type} (f : list R) (i : Z) : exn + R :=
  let n := Z.of_nat (List.length f) in
  let j := if (i <? 0)%Z then (n + i)%Z else i in
  if (0 <=? j)%Z && (j <? n)%Z then
    match nth_error f (Z.to_nat j) with
    | Some r => inr r
    | None => inl (IndexError "single positional indexer is out-of-bounds")
    end
  else inl (IndexError "single positional indexer is out-of-bounds").

Definition top_brand (f : DataFrame) : exn + string :=
  match iloc (brand_summary f) 0 with
  | inr row => inr (brand row)
  | inl e => inl e
  end.

Definition low_brand (f : DataFrame) : exn + string :=
  match iloc (brand_summary f) (-1) with
  | inr row => inr (brand row)
  | inl e => inl e
  end.

(* ================================================================= *)
(** ** Guest brand preference *)

Definition guest_pref (f : DataFrame) : list (string * string * nat) :=
  groupby (fun r => (Customer_Mobile_No r, MenuGroupDescription r))
          (fun g => List.length g) f.

Definition top_guest_pref (f : DataFrame) : list (string * string * nat) :=
  firstn 20 (sort_values (fun a b => Nat.leb (snd b) (snd a)) (guest_pref f)).

(* ================================================================= *)
(** ** The revenue sums on float64 *)

(** The total and the per-segment revenue are sums of the same amounts
    taken in different orders, so on float64 their last digits depend on
    how pandas adds.  This module repeats the statements that lead to
    [total_revenue] and [seg_rev] with the Gross Amount column as binary64
    numbers and with the two summation loops pandas runs. *)
Module Float64.

(** The three columns these statements read. *)
Record Row : Type := {
  Customer_Mobile_No : string;
  Bill_No : string;
  Gross_Amount : float
}.

(** A missing value counts as 0 in a sum ([skipna]). *)
Definition fillna (v : float) : float :=
  if PrimFloat.is_nan v then 0%float else v.

(** Eight running sums take eight values at a time, as long as eight are
    left; [fuel] bounds the number of rounds. *)
Fixpoint accumulate (fuel : nat) (r l : list float)
  : list float * list float :=
  match fuel with
  | O => (r, l)
  | S fuel' =>
      if Nat.leb 8 (List.length l)
      then accumulate fuel'
             (map (fun p => PrimFloat.add (fst p) (snd p))
                  (combine r (firstn 8 l)))
             (skipn 8 l)
      else (r, l)
  end.

(** The eight running sums are added in pairs. *)
Definition reduce_lanes (r : list float) : float :=
  match r with
  | [r0; r1; r2; r3; r4; r5; r6; r7] =>
      (((r0 + r1) + (r2 + r3)) + ((r4 + r5) + (r6 + r7)))%float
  | _ => 0%float
  end.

(** NumPy's pairwise summation: fewer than 8 values are added from left
    to right; up to 128 values go through the eight running sums, the
    values left over being added at the end; a longer array is cut in two
    at a multiple of 8.  Each cut at least halves the array, so [fuel]
    equal to the length is enough. *)
Fixpoint pairwise_sum (fuel : nat) (l : list float) : float :=
  let n := List.length l in
  if Nat.ltb n 8 then fold_left PrimFloat.add l 0%float
  else if Nat.leb n 128 then
    let (r, rest) := accumulate n (firstn 8 l) (skipn 8 l) in
    fold_left PrimFloat.add rest (reduce_lanes r)
  else
    match fuel with
    | O => 0%float
    | S fuel' =>
        let n2 := (n / 2 - (n / 2) mod 8)%nat in
        (pairwise_sum fuel' (firstn n2 l)
         + pairwise_sum fuel' (skipn n2 l))%float
    end.

(** [Series.sum()] of a float64 column. *)
Definition np_sum (col : list float) : float :=
  (0 + pairwise_sum (List.length col) (map fillna col))%float.

(** One step of the compensated sum [groupby(...).sum()] keeps for each
    group: the running sum and the running compensation. *)
Definition compensated_step (st : float * float) (val : float)
  : float * float :=
  if PrimFloat.is_nan val then st
  else
    let (sumx, compensation) := st in
    let y := (val - compensation)%float in
    let t := (sumx + y)%float in
    let c := ((t - sumx) - y)%float in
    (t, if PrimFloat.is_nan c then 0%float else c).

(** The sum of one group, its values in the order of the frame. *)
Definition group_sum (values : list float) : float :=
  fst (fold_left compensated_step values (0%float, 0%float)).

Definition total_revenue (f : list Row) : float :=
  np_sum (map Gross_Amount f).

Record GuestRow : Type := {
  guest : string;
  visits : nat;
  spend : float
}.

Definition guest_metrics (f : list Row) : list GuestRow :=
  map (fun kv => {| guest := fst kv;
                    visits := fst (snd kv);
                    spend := snd (snd kv) |})
      (groupby Customer_Mobile_No
         (fun g => (nunique (map Bill_No g),
                    group_sum (map Gross_Amount g))) f).

Definition segment (row : GuestRow) : Segment :=
  if PrimFloat.ltb 10000 (spend row) || Nat.leb 6 (visits row) then VIP
  else if Nat.leb 3 (visits row) then Regular
  else Occasional.

Definition guest_segments (f : list Row) : list (GuestRow * Segment) :=
  map (fun row => (row, segment row)) (guest_metrics f).

Definition merge (left : list (GuestRow * Segment))
  (right : list (string * float)) : list (GuestRow * Segment * float) :=
  flat_map (fun l =>
              map (fun r => (l, snd r))
                  (filter (fun r => label_eqb (fst r) (guest (fst l))) right))
           left.

(** The merged frame of the revenue-by-segment statement. *)
Definition merged (f : list Row) : list (GuestRow * Segment * float) :=
  merge (guest_segments f)
        (map (fun r => (Customer_Mobile_No r, Gross_Amount r)) f).

Definition seg_rev (f : list Row) : list (Segment * float) :=
  groupby (fun m => snd (fst m)) (fun g => group_sum (map snd g))
          (merged f).


End Float64.

(* ================================================================= *)
(** ** The script *)

(** What a run puts on the page, one constructor per Streamlit call, with
    the view it is given (number formatting is left to the display). *)
Inductive element : Type :=
| st_title (text : string)
| st_caption (text : string)
| st_subheader (text : string)
| st_text (text : string)
| st_divider
| metric_total_revenue (v : Q)
| metric_unique_guests (n : nat)
| metric_repeat_pct (p : float64)
| chart_seg_counts (s : list (Segment * nat))
| chart_seg_rev (s : list (Segment * Q))
| table_heatmap (t : list (string * list (string * nat)))
| chart_visit_dist (s : list (nat * nat))
| chart_day_sales (s : list (day_name * Q))
| chart_hour_sales (s : list (nat * Q))
| metric_average_clv (v : float64)
| table_top_clv (t : list ClvRow)
| table_inactive (t : list (string * Timestamp))
| table_recent (t : list (string * Timestamp))
| table_brand_summary (t : list BrandRow)
| chart_brand_revenue (s : list (string * Q))
| chart_brand_guests (s : list (string * nat))
| st_success (top : string)
| st_warning (low : string)
| table_guest_pref (t : list (string * string * nat)).

(** A run of script code: the page so far goes in, the page and either the
    exception that stopped the run or a value come out. *)
Definition Script (A : Type) : Type :=
  list element -> list element * (exn + A).

Definition ret {A : Type} (a : A) : Script A :=
  fun page => (page, inr a).

Definition bind {A B : Type} (m : Script A) (k : A -> Script B) : Script B :=
  fun page =>
    match m page with
    | (page', inr a) => k a page'
    | (page', inl e) => (page', inl e)
    end.

(** A Streamlit call appends its element. *)
Definition show (e : element) : Script unit :=
  fun page => (page ++ [e], inr tt).

(** An expression that may raise. *)
Definition eval {A : Type} (r : exn + A) : Script A :=
  fun page => (page, r).

Declare Scope script_scope.
Delimit Scope script_scope with script.
Notation "x <- m ;; k" := (bind m (fun x => k))
  (at level 61, m at next level, right associativity) : script_scope.
Notation "m ;; k" := (bind m (fun _ => k))
  (at level 61, right associativity) : script_scope.

(** app.py from the filters on, statement by statement. *)
Definition dashboard (df : DataFrame) (centre month : list string)
  : Script unit :=
  (let f := filtered_df df centre month in
   show (st_title "Beer Consumption Analytics Dashboard") ;;
   show (st_caption "Customer Segmentation, Revenue Insights, Retention, Brand Performance") ;;
   show (metric_total_revenue (total_revenue f)) ;;
   show (metric_unique_guests (unique_guests f)) ;;
   show (metric_repeat_pct (repeat_pct f)) ;;
   show st_divider ;;
   show (st_subheader "Guest Segmentation") ;;
   show (chart_seg_counts (seg_counts f)) ;;
   show (st_text "Revenue Contribution by Segment") ;;
   show (chart_seg_rev (seg_rev f)) ;;
   show st_divider ;;
   show (st_subheader "Centre-wise Beer Preference") ;;
   show (table_heatmap (heatmap_data f)) ;;
   show st_divider ;;
   show (st_subheader "Visit Frequency Distribution") ;;
   show (chart_visit_dist (visit_dist f)) ;;
   show st_divider ;;
   show (st_subheader "Peak Consumption Insights") ;;
   show (st_text "Revenue by Day") ;;
   show (chart_day_sales (day_sales f)) ;;
   show (st_text "Revenue by Hour") ;;
   show (chart_hour_sales (hour_sales f)) ;;
   show st_divider ;;
   show (st_subheader "Customer Lifetime Value") ;;
   show (metric_average_clv (average_clv f)) ;;
   show (st_text "Top 10 Customers by CLV") ;;
   show (table_top_clv (top_clv f)) ;;
   show st_divider ;;
   show (st_subheader "Retention Insights") ;;
   show (st_text "Inactive Guests (30+ days)") ;;
   show (table_inactive (inactive f)) ;;
   show (st_text "Guests Likely to Return Soon") ;;
   show (table_recent (recent f)) ;;
   show st_divider ;;
   show (st_subheader "Beer Brand Insights") ;;
   show (table_brand_summary (brand_summary f)) ;;
   show (st_text "Revenue Contribution by Brand") ;;
   show (chart_brand_revenue
           (map (fun b => (brand b, Revenue b)) (brand_summary f))) ;;
   show (st_text "Unique Guests by Brand") ;;
   show (chart_brand_guests
           (map (fun b => (brand b, Unique_Guests b)) (brand_summary f))) ;;
   top <- eval (top_brand f) ;;
   low <- eval (low_brand f) ;;
   show (st_success top) ;;
   show (st_warning low) ;;
   show st_divider ;;
   show (st_subheader "Guest Beer Brand Preference") ;;
   show (table_guest_pref (top_guest_pref f)))%script.

(** A run on an empty page. *)
Definition run (df : DataFrame) (centre month : list string)
  : list element * (exn + unit) :=
  dashboard df centre month [].




(** Segments in ascending order of standing. *)
Definition segment_rank (s : Segment) : nat :=
  match s with Occasional => 0 | Regular => 1 | VIP => 2 end.

(** The seven day names. *)
Definition all_days : list day_name :=
  [Monday; Tuesday; Wednesday; Thursday; Friday; Saturday; Sunday].

(* ================================================================= *)
(** ** Sample data *)

Definition row (date : Z) (cust pos month bill : string) (gross : Q)
  (menu : string) : Row :=
  {| Date := date;
     Time := {| hour := 19; minute := 30; second := 0 |};
     Customer_Mobile_No := cust;
     POSDescription := pos;
     Bill_Month := month;
     Bill_No := bill;
     Gross_Amount := gross;
     NetAmount := gross;
     Quantity := 1;
     MenuGroupDescription := menu;
     Day := day_name_of date;
     Hour := 19 |}.

(** One guest, one bill of two line items. *)
Definition one_bill_two_items : DataFrame :=
  [ row 19800 "9990011122" "Taproom" "Mar" "B1" 450 "Lager";
    row 19800 "9990011122" "Taproom" "Mar" "B1" 300 "Stout" ].

(** Guest B last seen 2024-02-20, guest C on 2024-03-28, guest A on
    2024-03-31 (days 19773, 19810 and 19813). *)
Definition retention_sample : DataFrame :=
  [ row 19773 "B" "Taproom" "Feb" "B1" 500 "Lager";
    row 19810 "C" "Taproom" "Mar" "B2" 700 "Stout";
    row 19813 "A" "Garden" "Mar" "B3" 900 "Lager";
    row 19790 "C" "Garden" "Mar" "B4" 650 "Ale" ].

(** Guest D last seen 15 days before guest A. *)
Definition gap_sample : DataFrame :=
  [ row 19798 "D" "Taproom" "Mar" "B5" 400 "Lager";
    row 19813 "A" "Garden" "Mar" "B3" 900 "Lager" ].

#[local] Set Warnings "-inexact-float".


(* ================================================================= *)
(** * Properties *)

(** ** Lawful labels *)

#[export] Instance string_LabelOk : LabelOk string.
Proof. exact String.eqb_eq. Qed.

#[export] Instance nat_LabelOk : LabelOk nat.
Proof. exact Nat.eqb_eq. Qed.

#[export] Instance Segment_LabelOk : LabelOk Segment.
Proof. intros [] []; simpl; split; congruence. Qed.

#[export] Instance pair_LabelOk (A B : Type) `{LabelOk A} `{LabelOk B}
  : LabelOk (A * B).
Proof.
  intros [a b] [c d]; simpl.
  rewrite andb_true_iff, !label_eqb_eq. split; [intros []|intros [=]]; now subst.
Qed.

Lemma label_eqb_refl (A : Type) `{LabelOk A} (x : A) : label_eqb x x = true.
Proof. now apply label_eqb_eq. Qed.

Lemma label_eqb_neq (A : Type) `{LabelOk A} (x y : A) :
  label_eqb x y = false <-> x <> y.
Proof. rewrite <- (label_eqb_eq x y). now destruct (label_eqb x y). Qed.

Lemma label_eqb_spec (A : Type) `{LabelOk A} (x y : A) :
  reflect (x = y) (label_eqb x y).
Proof. apply iff_reflect. symmetry. apply label_eqb_eq. Qed.

(** ** Lists: filters, distinct values, sorting *)

Lemma filter_all (A : Type) (p : A -> bool) (l : list A) :
  (forall x, In x l -> p x = true) -> filter p l = l.
Proof.
  induction l as [|x l IH]; simpl; intros Hp; [reflexivity|].
  rewrite (Hp x (or_introl eq_refl)), IH; auto.
Qed.

Lemma filter_none (A : Type) (p : A -> bool) (l : list A) :
  (forall x, In x l -> p x = false) -> filter p l = [].
Proof.
  induction l as [|x l IH]; simpl; intros Hp; [reflexivity|].
  rewrite (Hp x (or_introl eq_refl)), IH; auto.
Qed.

Section PandasFacts.
Context {A : Type} `{LabelOk A}.

Lemma isin_In (values : list A) (x : A) :
  isin values x = true <-> In x values.
Proof.
  unfold isin. rewrite existsb_exists. split.
  - intros (y & Hy & E). apply label_eqb_eq in E. now subst.
  - intros Hx. exists x. split; [assumption | apply (label_eqb_refl x)].
Qed.

Lemma unique_In (l : list A) (x : A) : In x (unique l) <-> In x l.
Proof.
  induction l as [|y l IH]; simpl; [tauto|].
  rewrite filter_In, IH, negb_true_iff, (label_eqb_neq x y).
  destruct (label_eqb_spec y x) as [E|N]; [tauto|].
  split; [tauto|]. intros [E|Hx]; [tauto|]. right. split; congruence.
Qed.

Lemma unique_NoDup (l : list A) : NoDup (unique l).
Proof.
  induction l as [|y l IH]; simpl; constructor.
  - rewrite filter_In, negb_true_iff, (label_eqb_neq y y). tauto.
  - now apply NoDup_filter.
Qed.
End PandasFacts.

Section SortingFacts.
Context {A : Type} (le : A -> A -> bool).

Lemma insert_sorted_perm (x : A) (l : list A) :
  Permutation (insert_sorted le x l) (x :: l).
Proof.
  induction l as [|y l IH]; simpl; [reflexivity|].
  destruct (le x y); [reflexivity|].
  rewrite IH. apply perm_swap.
Qed.

Lemma sort_values_perm (l : list A) : Permutation (sort_values le l) l.
Proof.
  induction l as [|x l IH]; simpl; [reflexivity|].
  rewrite insert_sorted_perm. now constructor.
Qed.

Lemma sort_values_In (l : list A) (x : A) :
  In x (sort_values le l) <-> In x l.
Proof.
  split; apply Permutation_in;
    [apply sort_values_perm | symmetry; apply sort_values_perm].
Qed.

Lemma sort_values_nil (l : list A) : sort_values le l = [] <-> l = [].
Proof.
  split; intros E.
  - apply Permutation_nil. rewrite <- E. apply sort_values_perm.
  - now subst.
Qed.

(** With a total, transitive order the result is sorted. *)
Hypothesis le_total : forall x y, le x y = true \/ le y x = true.
Hypothesis le_trans :
  forall x y z, le x y = true -> le y z = true -> le x z = true.

Let R (x y : A) : Prop := le x y = true.

Lemma insert_sorted_sorted (x : A) (l : list A) :
  StronglySorted R l -> StronglySorted R (insert_sorted le x l).
Proof.
  induction 1 as [|y l Hl IH Hy]; simpl.
  - repeat constructor.
  - destruct (le x y) eqn:E.
    + constructor; [now constructor|].
      constructor; [exact E|].
      rewrite Forall_forall in *. intros z Hz.
      eapply le_trans; [exact E | now apply Hy].
    + constructor; [exact IH|].
      rewrite Forall_forall in *. intros z Hz.
      eapply Permutation_in in Hz; [|apply insert_sorted_perm].
      destruct Hz as [<-|Hz]; [|now apply Hy].
      destruct (le_total x y) as [C|C]; [congruence | exact C].
Qed.

Lemma sort_values_sorted (l : list A) :
  StronglySorted R (sort_values le l).
Proof.
  induction l as [|x l IH]; simpl;
    [constructor | now apply insert_sorted_sorted].
Qed.
End SortingFacts.

Lemma group_keys_In (A : Type) `{LabelOk A} (col : list A) (x : A) :
  In x (group_keys col) <-> In x col.
Proof. unfold group_keys. now rewrite sort_values_In, unique_In. Qed.

Lemma group_keys_NoDup (A : Type) `{LabelOk A} (col : list A) :
  NoDup (group_keys col).
Proof.
  unfold group_keys.
  apply (Permutation_NoDup (l := unique col));
    [symmetry; apply sort_values_perm | apply unique_NoDup].
Qed.

(* ================================================================= *)
(** ** Filters *)

(** C6. With nothing selected in the business-unit filter, or nothing
    selected in the reporting-period filter, the filtered frame has no
    rows, whatever the table. *)
Theorem empty_selection_filters_everything
  (df : DataFrame) (centre month : list string) :
  filtered_df df [] month = [] /\
  filtered_df df centre [] = [] /\
  List.length (filtered_df df [] month) = 0%nat /\
  List.length (filtered_df df centre []) = 0%nat.
Proof.
  assert (L : filtered_df df [] month = []).
  { apply filter_none. intros r _. reflexivity. }
  assert (M : filtered_df df centre [] = []).
  { apply filter_none. intros r _. apply andb_false_r. }
  rewrite L, M. repeat split.
Qed.

(** C7. With the default selections, all business units and all reporting
    periods that occur in the table, the filtered frame has as many rows
    as the table; it is the table itself. *)
Theorem default_selection_row_count (df : DataFrame) :
  List.length (filtered_df df (default_centre df) (default_month df))
  = List.length df
  /\ filtered_df df (default_centre df) (default_month df) = df.
Proof.
  assert (K : filtered_df df (default_centre df) (default_month df) = df).
  { unfold filtered_df, default_centre, default_month.
    apply filter_all. intros r Hr. apply andb_true_iff.
    split; apply isin_In, unique_In.
    - apply (in_map POSDescription), Hr.
    - apply (in_map Bill_Month), Hr. }
  rewrite K. split; reflexivity.
Qed.

(* ================================================================= *)
(** ** Segments *)

Lemma Qgtb_lt (x y : Q) : Qgtb x y = true <-> (y < x)%Q.
Proof.
  unfold Qgtb. rewrite negb_true_iff. split.
  - intros E. apply Qnot_le_lt. intros L.
    apply Qle_bool_iff in L. congruence.
  - intros L. destruct (Qle_bool x y) eqn:E; [|reflexivity].
    apply Qle_bool_iff in E. destruct (Qlt_not_le _ _ L E).
Qed.

(** C3. A guest is VIP exactly when spend exceeds 10000 or there are at
    least 6 visits; failing that, Regular exactly when there are at least
    3 visits; failing both, Occasional.  The VIP test comes first: 6 visits
    with spend 5000, or with spend 8000, is VIP. *)
Theorem segment_rule (row : GuestRow) :
  (segment row = VIP <->
     ((10000 < spend row)%Q \/ (6 <= visits row)%nat)) /\
  (segment row = Regular <->
     (~ ((10000 < spend row)%Q \/ (6 <= visits row)%nat)
      /\ (3 <= visits row)%nat)) /\
  (segment row = Occasional <->
     (~ ((10000 < spend row)%Q \/ (6 <= visits row)%nat)
      /\ (visits row < 3)%nat)) /\
  segment {| guest := "9990011122"; visits := 6; spend := 5000 |} = VIP /\
  segment {| guest := "9990011122"; visits := 6; spend := 8000 |} = VIP.
Proof.
  unfold segment.
  assert (V : Qgtb (spend row) 10000 || Nat.leb 6 (visits row) = true <->
              ((10000 < spend row)%Q \/ (6 <= visits row)%nat)).
  { now rewrite orb_true_iff, Qgtb_lt, Nat.leb_le. }
  destruct (Qgtb (spend row) 10000 || Nat.leb 6 (visits row)).
  - assert (C : (10000 < spend row)%Q \/ (6 <= visits row)%nat)
      by now apply V.
    repeat split; try reflexivity; try discriminate; try tauto.
  - assert (C : ~ ((10000 < spend row)%Q \/ (6 <= visits row)%nat)).
    { intros C. apply V in C. discriminate. }
    destruct (Nat.leb 3 (visits row)) eqn:E;
      [apply Nat.leb_le in E | apply Nat.leb_gt in E];
      repeat split; try reflexivity; try discriminate; try tauto;
      try (intros [_ L]; lia).
Qed.

(* ================================================================= *)
(** ** Repeat-guest percentage *)

Lemma filter_perm (A : Type) (p : A -> bool) (l l' : list A) :
  Permutation l l' -> Permutation (filter p l) (filter p l').
Proof.
  induction 1 as [|x l l' _ IH|x y l|l l' l'' _ IH1 _ IH2]; simpl.
  - constructor.
  - destruct (p x); [now constructor | exact IH].
  - destruct (p x), (p y); try reflexivity. apply perm_swap.
  - now transitivity (filter p l').
Qed.

(** What the numerator counts: the guests with more than one row. *)
Lemma repeat_guests_counts_rows (f : DataFrame) :
  repeat_guests f =
  List.length
    (filter (fun c => Nat.ltb 1 (occurrences c (map Customer_Mobile_No f)))
            (unique (map Customer_Mobile_No f))).
Proof.
  unfold repeat_guests, repeat_counts, value_counts.
  erewrite Permutation_length;
    [|apply filter_perm, sort_values_perm].
  rewrite filter_map_swap. apply length_map.
Qed.

(** C1. On a frame holding one guest with a single bill of two line
    items, nobody has more than one distinct bill, yet the script counts
    the guest as a repeat guest and reports 100 percent. *)
Theorem repeat_pct_counts_line_items :
  unique_guests one_bill_two_items = 1%nat /\
  visit_freq one_bill_two_items = [("9990011122", 1%nat)] /\
  repeat_guests one_bill_two_items = 1%nat /\
  repeat_pct one_bill_two_items = Fin 100.
Proof. repeat split; vm_compute; reflexivity. Qed.

(** C2, as stated, fails: with nothing selected there are no guests, and
    the percentage is not a number. *)
Lemma repeat_pct_no_fallback :
  unique_guests (filtered_df retention_sample [] []) = 0%nat /\
  repeat_pct (filtered_df retention_sample [] []) = NaN /\
  is_number (repeat_pct (filtered_df retention_sample [] [])) = false.
Proof. repeat split. Qed.

(** C2, amended. When the filtered frame has no guests the division is
    carried out all the same, 0 by 0, and the percentage is NaN: no
    exception, and no substitute value. *)
Theorem repeat_pct_zero_guests (f : DataFrame) :
  unique_guests f = 0%nat ->
  repeat_guests f = 0%nat /\
  repeat_pct f = NaN /\
  is_number (repeat_pct f) = false.
Proof.
  intros U.
  assert (G : repeat_guests f = 0%nat).
  { rewrite repeat_guests_counts_rows.
    unfold unique_guests, nunique in U.
    apply length_zero_iff_nil in U. now rewrite U. }
  unfold repeat_pct. rewrite G, U. repeat split.
Qed.

(** The empty frame has no guests and its percentage is NaN. *)
Lemma repeat_pct_zero_guests_witness :
  unique_guests [] = 0%nat /\ repeat_pct [] = NaN.
Proof.
  split; [reflexivity|].
  apply (repeat_pct_zero_guests []). reflexivity.
Defined.

(* ================================================================= *)
(** ** Groups partition a frame *)

Section GroupPartition.
Context {R K : Type} `{LabelOk K}.
Variable key : R -> K.




End GroupPartition.


Lemma guest_segments_keys (f : DataFrame) :
  map (fun l => guest (fst l)) (guest_segments f)
  = group_keys (map Customer_Mobile_No f).
Proof.
  unfold guest_segments, guest_metrics, groupby.
  rewrite !map_map. simpl. apply map_id.
Qed.

(* ================================================================= *)
(** ** Revenue by segment against the total, on float64 *)






(* ================================================================= *)
(** ** Retention *)

Lemma fold_max_spec (l : list Z) (d : Z) :
  In (fold_left Z.max l d) (d :: l) /\
  (forall x, In x (d :: l) -> (x <= fold_left Z.max l d)%Z).
Proof.
  revert d. induction l as [|y l IH]; intros d; simpl.
  - split; [now left | intros x [<-|[]]; lia].
  - destruct (IH (Z.max d y)) as [I U]. split.
    + destruct I as [E|I]; [|now right; right].
      rewrite <- E. destruct (Z.max_spec d y) as [[_ ->]|[_ ->]]; auto.
    + intros x Hx.
      assert (M : (Z.max d y <= fold_left Z.max l (Z.max d y))%Z)
        by (apply U; now left).
      destruct Hx as [<-|[<-|Hx]]; [lia | lia | apply U; now right].
Qed.

Lemma date_max_spec (col : list Z) (m : Z) :
  date_max col = Some m <->
  In m col /\ (forall x, In x col -> (x <= m)%Z).
Proof.
  destruct col as [|d l]; simpl.
  - split; [discriminate | tauto].
  - destruct (fold_max_spec l d) as [I U]. split.
    + intros [= <-]. split; assumption.
    + intros [Hm Um]. f_equal. apply Z.le_antisymm; auto.
Qed.

Lemma date_max_frame (f : DataFrame) (g : Z) :
  date_max (map Date f) = Some g <-> max_date_is f g.
Proof.
  rewrite date_max_spec. unfold max_date_is. split; intros [E U]; split.
  - apply in_map_iff in E. destruct E as (r & E & Hr). now exists r.
  - intros r Hr. apply U, in_map, Hr.
  - destruct E as (r & Hr & <-). apply in_map, Hr.
  - intros x Hx. apply in_map_iff in Hx.
    destruct Hx as (r & <- & Hr). now apply U.
Qed.

Lemma date_max_guest (f : DataFrame) (c : string) (d : Z) :
  date_max (map Date (rows_with Customer_Mobile_No c f)) = Some d
  <-> last_visit_is f c d.
Proof.
  rewrite date_max_spec. unfold last_visit_is, rows_with.
  split; intros [E U]; split.
  - apply in_map_iff in E. destruct E as (r & E & Hr).
    apply filter_In in Hr. destruct Hr as [Hr K].
    apply (label_eqb_eq (Customer_Mobile_No r) c) in K. now exists r.
  - intros r Hr K. apply U, in_map, filter_In. split; [exact Hr|].
    now apply (label_eqb_eq (Customer_Mobile_No r) c).
  - destruct E as (r & Hr & K & <-). apply in_map, filter_In.
    split; [exact Hr|]. now apply (label_eqb_eq (Customer_Mobile_No r) c).
  - intros x Hx. apply in_map_iff in Hx. destruct Hx as (r & <- & Hr).
    apply filter_In in Hr. destruct Hr as [Hr K].
    apply (label_eqb_eq (Customer_Mobile_No r) c) in K. now apply U.
Qed.

Lemma last_visit_In (f : DataFrame) (c : string) (ts : Timestamp) :
  In (c, ts) (last_visit f) <->
  In c (map Customer_Mobile_No f) /\
  ts = date_max (map Date (rows_with Customer_Mobile_No c f)).
Proof.
  unfold last_visit, groupby. rewrite in_map_iff. split.
  - intros (k & [= <- <-] & Hk).
    split; [|reflexivity].
    now apply (group_keys_In (map Customer_Mobile_No f)).
  - intros [Hc ->]. exists c. split; [reflexivity|].
    now apply (group_keys_In (map Customer_Mobile_No f)).
Qed.

Lemma last_visit_is_In (f : DataFrame) (c : string) (d : Z) :
  last_visit_is f c d -> In c (map Customer_Mobile_No f).
Proof. intros [(r & Hr & <- & _) _]. apply in_map, Hr. Qed.

Lemma inactive_In (f : DataFrame) (c : string) :
  In c (map fst (inactive f)) <->
  exists d g, last_visit_is f c d /\ max_date_is f g /\ (d < g - 30)%Z.
Proof.
  unfold inactive. rewrite in_map_iff. split.
  - intros ([c' ts] & E & Hx). simpl in E. subst c'.
    apply filter_In in Hx. destruct Hx as [Hx T]. simpl in T.
    apply last_visit_In in Hx. destruct Hx as [_ Hts].
    destruct ts as [d|]; [|discriminate].
    destruct (date_max (map Date f)) as [g|] eqn:G; [|discriminate].
    simpl in T. apply Z.ltb_lt in T.
    exists d, g. split; [apply date_max_guest; now symmetry|].
    split; [now apply date_max_frame | exact T].
  - intros (d & g & L & G & T). exists (c, Some d). split; [reflexivity|].
    apply filter_In. split.
    + apply last_visit_In. split; [exact (last_visit_is_In L)|].
      symmetry. now apply date_max_guest.
    + apply date_max_frame in G. simpl. rewrite G. simpl.
      now apply Z.ltb_lt.
Qed.

Lemma recent_In (f : DataFrame) (c : string) :
  In c (map fst (recent f)) <->
  exists d g, last_visit_is f c d /\ max_date_is f g /\ (g - 7 <= d)%Z.
Proof.
  unfold recent. rewrite in_map_iff. split.
  - intros ([c' ts] & E & Hx). simpl in E. subst c'.
    apply filter_In in Hx. destruct Hx as [Hx T]. simpl in T.
    apply last_visit_In in Hx. destruct Hx as [_ Hts].
    destruct ts as [d|]; [|discriminate].
    destruct (date_max (map Date f)) as [g|] eqn:G; [|discriminate].
    simpl in T. apply Z.leb_le in T.
    exists d, g. split; [apply date_max_guest; now symmetry|].
    split; [now apply date_max_frame | exact T].
  - intros (d & g & L & G & T). exists (c, Some d). split; [reflexivity|].
    apply filter_In. split.
    + apply last_visit_In. split; [exact (last_visit_is_In L)|].
      symmetry. now apply date_max_guest.
    + apply date_max_frame in G. simpl. rewrite G. simpl.
      now apply Z.leb_le.
Qed.

Lemma last_visit_is_unique (f : DataFrame) (c : string) (d d' : Z) :
  last_visit_is f c d -> last_visit_is f c d' -> d = d'.
Proof.
  intros L L'. apply date_max_guest in L, L'. congruence.
Qed.

Lemma max_date_is_unique (f : DataFrame) (g g' : Z) :
  max_date_is f g -> max_date_is f g' -> g = g'.
Proof.
  intros G G'. apply date_max_frame in G, G'. congruence.
Qed.

(** C5. A guest is listed as inactive exactly when the guest's latest
    date is more than 30 days before the latest date of the filtered
    frame, and as recent exactly when it is at most 7 days before it; no
    guest is in both lists. *)
Theorem retention_views (f : DataFrame) (c : string) :
  (In c (map fst (inactive f)) <->
     exists d g, last_visit_is f c d /\ max_date_is f g /\ (d < g - 30)%Z)
  /\
  (In c (map fst (recent f)) <->
     exists d g, last_visit_is f c d /\ max_date_is f g /\ (d >= g - 7)%Z)
  /\
  ~ (In c (map fst (inactive f)) /\ In c (map fst (recent f))).
Proof.
  split; [apply inactive_In|]. split.
  - rewrite recent_In. split; intros (d & g & L & G & T);
      exists d, g; (split; [exact L | split; [exact G | lia]]).
  - rewrite inactive_In, recent_In.
    intros [(d & g & L & G & T) (d' & g' & L' & G' & T')].
    rewrite (last_visit_is_unique L L'), (max_date_is_unique G G') in T.
    lia.
Qed.

(** C10. In a non-empty filtered frame every guest whose latest date is
    the latest date of the frame is listed as recent, and so the recent
    list is not empty. *)
Theorem latest_guest_is_recent (f : DataFrame) :
  f <> [] ->
  (forall c g, last_visit_is f c g -> max_date_is f g ->
               In c (map fst (recent f)))
  /\ (exists c, In c (map fst (recent f))).
Proof.
  intros N.
  assert (A : forall c g, last_visit_is f c g -> max_date_is f g ->
                          In c (map fst (recent f))).
  { intros c g L G. apply recent_In. exists g, g.
    split; [exact L | split; [exact G | lia]]. }
  split; [exact A|].
  destruct f as [|r0 f]; [congruence|].
  destruct (date_max (map Date (r0 :: f))) as [g|] eqn:G;
    [|discriminate].
  apply date_max_frame in G.
  destruct G as [(r & Hr & E) U].
  exists (Customer_Mobile_No r). apply (A _ g).
  - split; [now exists r | intros r' Hr' _; now apply U].
  - split; [now exists r | exact U].
Qed.

(** On the sample, last seen 2024-02-20 is inactive and 2024-03-28 is
    recent against a latest date of 2024-03-31. *)
Example retention_on_sample :
  map fst (inactive retention_sample) = ["B"] /\
  map fst (recent retention_sample) = ["A"; "C"].
Proof. split; reflexivity. Qed.

(** The sample frame has a recent guest. *)
Lemma latest_guest_is_recent_witness :
  retention_sample <> [] /\
  exists c, In c (map fst (recent retention_sample)).
Proof.
  split; [discriminate|].
  apply (latest_guest_is_recent (f := retention_sample)). discriminate.
Defined.

(* ================================================================= *)
(** ** Brand summary and banners *)

Lemma iloc_first (R : Type) (x : R) (l : list R) : iloc (x :: l) 0 = inr x.
Proof.
  unfold iloc. cbn [Z.ltb Z.compare Z.leb andb].
  destruct (Z.ltb_spec 0 (Z.of_nat (List.length (x :: l)))) as [_|L];
    [reflexivity | simpl List.length in L; lia].
Qed.

Lemma nth_error_last (R : Type) (x d : R) (l : list R) :
  nth_error (x :: l) (List.length l) = Some (last (x :: l) d).
Proof.
  revert x. induction l as [|y l IH]; intros x; [reflexivity|].
  change (nth_error (y :: l) (List.length l) = Some (last (y :: l) d)).
  apply IH.
Qed.

Lemma iloc_last (R : Type) (x d : R) (l : list R) :
  iloc (x :: l) (-1) = inr (last (x :: l) d).
Proof.
  unfold iloc. cbn [Z.ltb Z.compare].
  replace (Z.of_nat (List.length (x :: l)) + -1)%Z
    with (Z.of_nat (List.length l)) by (simpl List.length; lia).
  destruct (Z.leb_spec 0 (Z.of_nat (List.length l))) as [_|L]; [|lia].
  destruct (Z.ltb_spec (Z.of_nat (List.length l))
              (Z.of_nat (List.length (x :: l)))) as [_|L];
    [|simpl List.length in L; lia].
  cbn [andb]. rewrite Nat2Z.id, (nth_error_last x d). reflexivity.
Qed.

Lemma unique_nil (A : Type) `{Label A} (l : list A) :
  unique l = [] <-> l = [].
Proof. destruct l; simpl; split; congruence. Qed.

Lemma brand_summary_nil (f : DataFrame) : brand_summary f = [] <-> f = [].
Proof.
  unfold brand_summary, groupby, group_keys.
  rewrite sort_values_nil. split.
  - intros E. apply map_eq_nil, map_eq_nil in E.
    apply sort_values_nil, unique_nil, map_eq_nil in E. exact E.
  - now intros ->.
Qed.

Lemma StronglySorted_impl (A : Type) (P Q : A -> A -> Prop) (l : list A) :
  (forall x y, P x y -> Q x y) ->
  StronglySorted P l -> StronglySorted Q l.
Proof.
  intros PQ. induction 1 as [|x l _ IH F]; constructor; [exact IH|].
  eapply Forall_impl; [|exact F]. intros y. apply PQ.
Qed.

Lemma brand_summary_sorted (f : DataFrame) :
  StronglySorted (fun a b => Revenue b <= Revenue a) (brand_summary f).
Proof.
  unfold brand_summary.
  eapply StronglySorted_impl;
    [|apply sort_values_sorted
        with (le := fun a b : BrandRow => Qle_bool (Revenue b) (Revenue a))].
  - intros x y. apply Qle_bool_iff.
  - intros x y. rewrite !Qle_bool_iff.
    destruct (Qlt_le_dec (Revenue x) (Revenue y)) as [L|L];
      [right; now apply Qlt_le_weak | now left].
  - intros x y z. rewrite !Qle_bool_iff. intros A B.
    now apply Qle_trans with (Revenue y).
Qed.

(** On a non-empty frame both look-ups succeed. *)
Lemma brand_rows (f : DataFrame) :
  f <> [] ->
  exists first rest,
    brand_summary f = first :: rest /\
    top_brand f = inr (brand first) /\
    low_brand f = inr (brand (last (brand_summary f) first)).
Proof.
  intros N. unfold top_brand, low_brand.
  destruct (brand_summary f) as [|first rest] eqn:E.
  - apply brand_summary_nil in E. contradiction.
  - exists first, rest.
    rewrite iloc_first, (iloc_last first first). repeat split.
Qed.



(* ================================================================= *)
(** ** The run as a whole *)




(* ================================================================= *)
(** * Further properties of the script *)

(** ** More list facts *)

Lemma filter_length_mono (A : Type) (p q : A -> bool) (l : list A) :
  (forall x, In x l -> p x = true -> q x = true) ->
  (List.length (filter p l) <= List.length (filter q l))%nat.
Proof.
  induction l as [|x l IH]; simpl; intros M; [lia|].
  assert (IH' := IH (fun y Hy => M y (or_intror Hy))).
  destruct (p x) eqn:P.
  - rewrite (M x (or_introl eq_refl) P). simpl. lia.
  - destruct (q x); simpl; lia.
Qed.

Lemma filter_length_bound (A : Type) (p : A -> bool) (l : list A) :
  (List.length (filter p l) <= List.length l)%nat.
Proof.
  induction l as [|x l IH]; simpl; [lia|]. destruct (p x); simpl; lia.
Qed.

Lemma filter_swap (A : Type) (p q : A -> bool) (l : list A) :
  filter p (filter q l) = filter q (filter p l).
Proof.
  induction l as [|x l IH]; simpl; [reflexivity|].
  destruct (q x) eqn:Q, (p x) eqn:P; simpl; rewrite ?Q, ?P, IH; reflexivity.
Qed.

Lemma filter_twice (A : Type) (p : A -> bool) (l : list A) :
  filter p (filter p l) = filter p l.
Proof.
  apply filter_all. intros x Hx. now apply filter_In in Hx.
Qed.

Lemma unique_length (A : Type) `{Label A} (l : list A) :
  (List.length (unique l) <= List.length l)%nat.
Proof.
  induction l as [|x l IH]; simpl; [lia|].
  pose proof (filter_length_bound (fun y => negb (label_eqb y x)) (unique l)).
  lia.
Qed.

Lemma occurrences_rows (R K : Type) `{LabelOk K} (key : R -> K) (k : K)
  (f : list R) :
  occurrences k (map key f) = List.length (rows_with key k f).
Proof.
  unfold occurrences, rows_with.
  induction f as [|r f IH]; simpl; [reflexivity|].
  destruct (label_eqb_spec k (key r)) as [E|N],
           (label_eqb_spec (key r) k) as [E'|N']; simpl;
    try congruence.
Qed.

(* ================================================================= *)
(** ** Filters, further *)

Lemma default_selection_identity (df : DataFrame) :
  filtered_df df (default_centre df) (default_month df) = df.
Proof.
  unfold filtered_df, default_centre, default_month.
  apply filter_all. intros r Hr. apply andb_true_iff.
  split; apply isin_In, unique_In.
  - apply (in_map POSDescription), Hr.
  - apply (in_map Bill_Month), Hr.
Qed.

(** X1. A row is in the filtered frame exactly when it is a row of the
    table whose business unit and whose reporting period are both among
    the selected values; filtering never adds rows. *)
Theorem filtered_df_rows (df : DataFrame) (centre month : list string)
  (r : Row) :
  (In r (filtered_df df centre month) <->
     In r df /\ In (POSDescription r) centre /\ In (Bill_Month r) month)
  /\ (List.length (filtered_df df centre month) <= List.length df)%nat.
Proof.
  split; [|apply filter_length_bound].
  unfold filtered_df.
  rewrite filter_In, andb_true_iff.
  rewrite (isin_In centre (POSDescription r)).
  rewrite (isin_In month (Bill_Month r)). tauto.
Qed.

(** X2. Filtering an already filtered frame: two selections can be
    applied in either order, and applying the same selection a second
    time changes nothing. *)
Theorem filtered_df_compose (df : DataFrame) (c1 m1 c2 m2 : list string) :
  filtered_df (filtered_df df c1 m1) c2 m2
  = filtered_df (filtered_df df c2 m2) c1 m1
  /\ filtered_df (filtered_df df c1 m1) c1 m1 = filtered_df df c1 m1.
Proof.
  unfold filtered_df. split; [apply filter_swap | apply filter_twice].
Qed.

(** X3. With the default selections on a table that has rows, the run
    ends normally: both banners are on the page, naming the first and the
    last brand of the brand table of the whole table, and so is the guest
    brand preference table. *)
Theorem default_run_completes (df : DataFrame) :
  df <> [] ->
  exists page top low,
    run df (default_centre df) (default_month df) = (page, inr tt) /\
    top_brand df = inr top /\ low_brand df = inr low /\
    In (st_success top) page /\ In (st_warning low) page /\
    In (table_guest_pref (top_guest_pref df)) page.
Proof.
  intros N. unfold run, dashboard. cbv zeta.
  rewrite default_selection_identity.
  destruct (brand_rows N) as (first & rest & _ & T & L).
  cbv [bind show eval app]. rewrite T, L.
  eexists. exists (brand first), (brand (last (brand_summary df) first)).
  split; [reflexivity|]. split; [reflexivity|]. split; [reflexivity|].
  repeat split; repeat first [left; reflexivity | right].
Qed.

(** The sample table renders in full with the default selections. *)
Lemma default_run_completes_witness :
  retention_sample <> [] /\
  exists page,
    run retention_sample (default_centre retention_sample)
      (default_month retention_sample) = (page, inr tt).
Proof.
  split; [discriminate|].
  destruct (@default_run_completes retention_sample) as
    (page & top & low & E & _); [discriminate|].
  now exists page.
Defined.

(* ================================================================= *)
(** ** Repeat guests, further *)

Lemma repeat_guests_le (f : DataFrame) :
  (repeat_guests f <= unique_guests f)%nat.
Proof.
  rewrite repeat_guests_counts_rows. apply filter_length_bound.
Qed.

Lemma unique_guests_pos (f : DataFrame) :
  f <> [] -> (0 < unique_guests f)%nat.
Proof.
  destruct f as [|r f]; [congruence|]. intros _.
  unfold unique_guests, nunique. simpl. lia.
Qed.

(** X4. On a frame with rows the repeat-guest percentage is a number
    between 0 and 100. *)
Theorem repeat_pct_range (f : DataFrame) :
  f <> [] ->
  exists q, repeat_pct f = Fin q /\ 0 <= q /\ q <= 100.
Proof.
  intros N. pose proof (unique_guests_pos N) as P.
  pose proof (repeat_guests_le f) as L.
  unfold repeat_pct.
  destruct (unique_guests f) as [|n]; [lia|].
  unfold true_divide, times. eexists. split; [reflexivity|].
  assert (E : Z.pos (Pos.of_nat (S n)) = Z.of_nat (S n)).
  { rewrite <- positive_nat_Z, Nat2Pos.id by lia. reflexivity. }
  unfold Qle, Qmult. cbn [Qnum Qden]. rewrite ?Pos.mul_1_r, E. split; nia.
Qed.

Lemma repeat_pct_range_witness :
  retention_sample <> [] /\
  exists q, repeat_pct retention_sample = Fin q /\ 0 <= q /\ q <= 100.
Proof.
  split; [discriminate|].
  apply (repeat_pct_range (f := retention_sample)). discriminate.
Defined.

(** X5. The guests the percentage counts as repeat guests include every
    guest with more than one distinct bill: counting rows can only
    overstate the number of guests who came more than once. *)
Theorem repeat_guests_overcount (f : DataFrame) :
  (List.length (filter (fun kv => Nat.ltb 1 (snd kv)) (visit_freq f))
   <= repeat_guests f)%nat.
Proof.
  rewrite repeat_guests_counts_rows.
  unfold visit_freq, groupby, group_keys.
  rewrite filter_map_swap, length_map.
  erewrite Permutation_length; [|apply filter_perm, sort_values_perm].
  apply filter_length_mono. intros c _. simpl.
  rewrite !Nat.ltb_lt, (occurrences_rows Customer_Mobile_No c f).
  intros V. eapply Nat.lt_le_trans; [exact V|].
  unfold nunique.
  etransitivity; [apply unique_length|]. now rewrite length_map.
Qed.

(* ================================================================= *)
(** ** Row counts over groups *)

Lemma list_sum_perm (l l' : list nat) :
  Permutation l l' -> list_sum l = list_sum l'.
Proof.
  induction 1; simpl; lia.
Qed.

Section GroupCounts.
Context {R K : Type} `{LabelOk K}.
Variable key : R -> K.

(** The number of rows of one group. *)
Let group_size (f : list R) (k : K) : nat :=
  List.length (rows_with key k f).

(** 1 when row [r] belongs to group [k]. *)
Let hit (r : R) (k : K) : nat :=
  if label_eqb (key r) k then 1%nat else 0%nat.

Lemma group_size_cons (r : R) (f : list R) (keys : list K) :
  list_sum (map (group_size (r :: f)) keys)
  = (list_sum (map (hit r) keys) + list_sum (map (group_size f) keys))%nat.
Proof.
  induction keys as [|k keys IH]; simpl; [reflexivity|].
  rewrite IH. unfold group_size at 1 3, hit at 2, rows_with. simpl.
  destruct (label_eqb (key r) k); simpl; lia.
Qed.

Lemma hit_absent (r : R) (keys : list K) :
  ~ In (key r) keys -> list_sum (map (hit r) keys) = 0%nat.
Proof.
  induction keys as [|k keys IH]; simpl; intros N; [reflexivity|].
  rewrite IH by tauto. unfold hit.
  destruct (label_eqb_spec (key r) k) as [E|_]; [|reflexivity].
  destruct N. now left.
Qed.

Lemma hit_present (r : R) (keys : list K) :
  NoDup keys -> In (key r) keys -> list_sum (map (hit r) keys) = 1%nat.
Proof.
  induction 1 as [|k keys Hk _ IH]; simpl; [tauto|].
  unfold hit at 1.
  destruct (label_eqb_spec (key r) k) as [E|N]; intros I.
  - rewrite hit_absent by congruence. reflexivity.
  - rewrite IH by (destruct I; [congruence | assumption]). reflexivity.
Qed.

(** Over distinct keys that cover the frame, the group sizes add up to
    the number of rows. *)
Lemma group_sizes_total (f : list R) (keys : list K) :
  NoDup keys -> (forall r, In r f -> In (key r) keys) ->
  list_sum (map (group_size f) keys) = List.length f.
Proof.
  intros D. induction f as [|r f IH]; intros C.
  - clear C D. induction keys as [|k keys IHk]; simpl; [reflexivity|].
    now rewrite IHk.
  - rewrite group_size_cons, hit_present, IH; simpl; try assumption.
    + reflexivity.
    + intros r' Hr'. apply C. now right.
    + apply C. now left.
Qed.

(** A key that occurs in the frame has a group with a row in it. *)
Lemma rows_with_nonempty (f : list R) (k : K) :
  In k (map key f) -> rows_with key k f <> [].
Proof.
  intros Hk. apply in_map_iff in Hk. destruct Hk as (r & <- & Hr).
  assert (I : In r (rows_with key (key r) f)).
  { apply filter_In. split; [exact Hr | apply (label_eqb_refl (key r))]. }
  intros E. rewrite E in I. destruct I.
Qed.
End GroupCounts.

Lemma value_counts_total (A : Type) `{LabelOk A} (col : list A) :
  list_sum (map snd (value_counts col)) = List.length col.
Proof.
  unfold value_counts.
  erewrite list_sum_perm; [|apply Permutation_map, sort_values_perm].
  rewrite map_map. simpl.
  erewrite map_ext;
    [|intros k; rewrite <- (map_id col) at 1;
      apply (occurrences_rows (fun x : A => x) k col)].
  apply (@group_sizes_total _ _ _ _ (fun x : A => x) col (unique col)).
  - apply (unique_NoDup col).
  - intros r Hr. now apply (unique_In col r).
Qed.

Lemma nunique_pos (A : Type) `{Label A} (l : list A) :
  l <> [] -> (1 <= nunique l)%nat.
Proof.
  destruct l as [|x l]; [congruence|]. intros _.
  unfold nunique. simpl. lia.
Qed.

Lemma group_keys_length (A : Type) `{Label A} (col : list A) :
  List.length (group_keys col) = nunique col.
Proof.
  unfold group_keys, nunique. apply Permutation_length, sort_values_perm.
Qed.

(* ================================================================= *)
(** ** Guest summary and segments, further *)

Lemma guest_metrics_keys (f : DataFrame) :
  map guest (guest_metrics f) = group_keys (map Customer_Mobile_No f).
Proof.
  unfold guest_metrics, groupby. rewrite !map_map. simpl. apply map_id.
Qed.

(** X6. The guest summary has exactly one row per distinct guest of the
    frame, and every guest in it has at least one visit and no more visits
    than rows in the frame. *)
Theorem guest_metrics_summary (f : DataFrame) :
  List.length (guest_metrics f) = unique_guests f /\
  NoDup (map guest (guest_metrics f)) /\
  (forall c, In c (map guest (guest_metrics f))
             <-> In c (map Customer_Mobile_No f)) /\
  (forall g, In g (guest_metrics f) ->
     (1 <= visits g <= occurrences (guest g) (map Customer_Mobile_No f))%nat).
Proof.
  split; [|split; [|split]].
  - rewrite <- (length_map guest), guest_metrics_keys.
    apply group_keys_length.
  - rewrite guest_metrics_keys.
    apply (group_keys_NoDup (map Customer_Mobile_No f)).
  - intros c. rewrite guest_metrics_keys.
    apply (group_keys_In (map Customer_Mobile_No f) c).
  - intros g Hg. unfold guest_metrics, groupby in Hg.
    rewrite map_map in Hg. apply in_map_iff in Hg.
    destruct Hg as (c & <- & Hc). simpl.
    apply (group_keys_In (map Customer_Mobile_No f) c) in Hc. split.
    + apply nunique_pos. intros E. apply map_eq_nil in E.
      exact (rows_with_nonempty Customer_Mobile_No f c Hc E).
    + rewrite (occurrences_rows Customer_Mobile_No c f).
      unfold nunique. etransitivity; [apply unique_length|].
      now rewrite length_map.
Qed.

(** X7. The segment never drops when a guest has more visits and more
    spend: with at least as many visits and at least as much spend the
    segment is the same or a higher one. *)
Theorem segment_monotone (a b : GuestRow) :
  (visits a <= visits b)%nat -> spend a <= spend b ->
  (segment_rank (segment a) <= segment_rank (segment b))%nat.
Proof.
  intros V S. unfold segment.
  destruct (Qgtb (spend b) 10000 || Nat.leb 6 (visits b)) eqn:B.
  - destruct (Qgtb (spend a) 10000 || Nat.leb 6 (visits a));
      [|destruct (Nat.leb 3 (visits a))]; simpl; lia.
  - apply orb_false_iff in B. destruct B as [B1 B2].
    apply Nat.leb_gt in B2.
    assert (A1 : Qgtb (spend a) 10000 = false).
    { destruct (Qgtb (spend a) 10000) eqn:G; [|reflexivity].
      apply Qgtb_lt in G.
      assert (G' : Qgtb (spend b) 10000 = true)
        by (apply Qgtb_lt; eapply Qlt_le_trans; eassumption).
      congruence. }
    assert (A2 : Nat.leb 6 (visits a) = false) by (apply Nat.leb_gt; lia).
    rewrite A1, A2. cbn [orb].
    destruct (Nat.leb 3 (visits a)) eqn:A3;
      [|destruct (Nat.leb 3 (visits b)); simpl; lia].
    apply Nat.leb_le in A3.
    assert (B3 : Nat.leb 3 (visits b) = true) by (apply Nat.leb_le; lia).
    rewrite B3. simpl. lia.
Qed.

Lemma segment_monotone_witness :
  (segment_rank (segment {| guest := "A"; visits := 2; spend := 900 |})
   <= segment_rank (segment {| guest := "B"; visits := 4; spend := 1200 |}))%nat.
Proof.
  apply segment_monotone; simpl; [lia|].
  unfold Qle. simpl. lia.
Defined.

(** X8. The segment chart accounts for every guest exactly once: its
    bars add up to the number of distinct guests. *)
Theorem seg_counts_total (f : DataFrame) :
  list_sum (map snd (seg_counts f)) = unique_guests f.
Proof.
  unfold seg_counts.
  rewrite (value_counts_total (map snd (guest_segments f))).
  unfold guest_segments. rewrite !length_map.
  rewrite <- (length_map guest), guest_metrics_keys.
  apply group_keys_length.
Qed.

Lemma merge_length (left : list (GuestRow * Segment))
  (right : list (string * Q)) :
  List.length (merge left right)
  = list_sum (map (fun k => List.length (rows_with fst k right))
                  (map (fun l => guest (fst l)) left)).
Proof.
  unfold merge. induction left as [|l left IH]; [reflexivity|].
  cbn [flat_map map list_sum]. rewrite length_app, IH, length_map.
  reflexivity.
Qed.

(** X9. The join of the guest summary with the filtered frame neither
    loses nor repeats a row: it has as many rows as the frame, and each
    of its rows carries the segment of the guest's summary row. *)
Theorem merge_keeps_rows (f : DataFrame) :
  let merged :=
    merge (guest_segments f)
          (map (fun r => (Customer_Mobile_No r, Gross_Amount r)) f) in
  List.length merged = List.length f /\
  (forall m, In m merged -> In (fst m) (guest_segments f)
                            /\ snd (fst m) = segment (fst (fst m))).
Proof.
  cbv zeta. split.
  - rewrite merge_length, guest_segments_keys.
    rewrite (@group_sizes_total _ _ _ _ fst).
    + apply length_map.
    + apply (group_keys_NoDup (map Customer_Mobile_No f)).
    + intros r Hr. apply in_map_iff in Hr. destruct Hr as (x & <- & Hx).
      apply (group_keys_In (map Customer_Mobile_No f)). simpl.
      apply in_map, Hx.
  - intros m Hm. unfold merge in Hm. apply in_flat_map in Hm.
    destruct Hm as (l & Hl & Hm). apply in_map_iff in Hm.
    destruct Hm as (r & <- & _). simpl. split; [exact Hl|].
    unfold guest_segments in Hl. apply in_map_iff in Hl.
    now destruct Hl as (g & <- & _).
Qed.

(* ================================================================= *)
(** ** Centre-wise preference and visit frequency *)

Lemma nunique_zero (A : Type) `{Label A} (l : list A) :
  nunique l = 0%nat <-> l = [].
Proof.
  unfold nunique. rewrite length_zero_iff_nil. apply unique_nil.
Qed.

(** X10. The centre-by-brand table is rectangular: one line per distinct
    centre of the frame, and on every line one cell per distinct brand of
    the frame.  A cell is 0 exactly when the frame has no row for that
    centre and brand. *)
Theorem heatmap_data_cells (f : DataFrame) :
  map fst (heatmap_data f) = group_keys (map POSDescription f) /\
  (forall line, In line (heatmap_data f) ->
     map fst (snd line) = group_keys (map MenuGroupDescription f)) /\
  (forall c cells b n,
     In (c, cells) (heatmap_data f) -> In (b, n) cells ->
     (n = 0%nat <->
      ~ exists r, In r f /\ POSDescription r = c
                  /\ MenuGroupDescription r = b)).
Proof.
  unfold heatmap_data. split; [|split].
  - rewrite map_map. simpl. apply map_id.
  - intros line Hl. apply in_map_iff in Hl. destruct Hl as (c & <- & _).
    simpl. rewrite map_map. simpl. apply map_id.
  - intros c cells b n Hl Hc. apply in_map_iff in Hl.
    destruct Hl as (c' & [= -> <-] & _).
    apply in_map_iff in Hc. destruct Hc as (b' & [= -> <-] & _).
    rewrite nunique_zero. split.
    + intros E (r & Hr & Hc & Hb). apply map_eq_nil in E.
      assert (I : In r (rows_with MenuGroupDescription b
                          (rows_with POSDescription c f))).
      { unfold rows_with. rewrite !filter_In.
        subst. repeat split; try assumption; apply String.eqb_refl. }
      rewrite E in I. destruct I.
    + intros N.
      destruct (rows_with MenuGroupDescription b
                  (rows_with POSDescription c f)) as [|r l] eqn:E;
        [reflexivity|].
      destruct N. exists r.
      assert (I : In r (rows_with MenuGroupDescription b
                          (rows_with POSDescription c f)))
        by (rewrite E; now left).
      unfold rows_with in I. rewrite !filter_In in I.
      destruct I as [[Hr Hc] Hb].
      apply String.eqb_eq in Hc, Hb. auto.
Qed.

Lemma value_counts_keys (A : Type) `{LabelOk A} (col : list A) :
  Permutation (map fst (value_counts col)) (unique col).
Proof.
  unfold value_counts.
  etransitivity; [apply Permutation_map, sort_values_perm|].
  rewrite map_map. simpl. now rewrite map_id.
Qed.

Lemma visit_freq_positive (f : DataFrame) (v : nat) :
  In v (map snd (visit_freq f)) -> (1 <= v)%nat.
Proof.
  unfold visit_freq, groupby. rewrite map_map. simpl.
  intros Hv. apply in_map_iff in Hv. destruct Hv as (c & <- & Hc).
  apply (group_keys_In (map Customer_Mobile_No f) c) in Hc.
  apply nunique_pos. intros E. apply map_eq_nil in E.
  exact (rows_with_nonempty Customer_Mobile_No f c Hc E).
Qed.

(** X11. The visit-frequency chart is in ascending order of visit count
    with no visit count twice and none below 1, and its bars add up to the
    number of distinct guests. *)
Theorem visit_dist_histogram (f : DataFrame) :
  StronglySorted (fun a b => (fst a <= fst b)%nat) (visit_dist f) /\
  NoDup (map fst (visit_dist f)) /\
  (forall kv, In kv (visit_dist f) -> (1 <= fst kv)%nat) /\
  list_sum (map snd (visit_dist f)) = unique_guests f.
Proof.
  assert (P : Permutation (visit_dist f)
                (value_counts (map snd (visit_freq f))))
    by apply sort_values_perm.
  split; [|split; [|split]].
  - unfold visit_dist.
    eapply StronglySorted_impl;
      [|apply sort_values_sorted
          with (le := fun a b : nat * nat => Nat.leb (fst a) (fst b))].
    + intros x y. apply Nat.leb_le.
    + intros x y. rewrite !Nat.leb_le. lia.
    + intros x y z. rewrite !Nat.leb_le. lia.
  - eapply Permutation_NoDup;
      [symmetry; etransitivity;
       [apply Permutation_map, P
       |apply (value_counts_keys (map snd (visit_freq f)))]|].
    apply (unique_NoDup (map snd (visit_freq f))).
  - intros kv Hkv. apply (visit_freq_positive f).
    apply (unique_In (map snd (visit_freq f)) (fst kv)).
    eapply Permutation_in;
      [apply (value_counts_keys (map snd (visit_freq f)))|].
    eapply Permutation_in; [apply Permutation_map, P|].
    now apply in_map.
  - erewrite list_sum_perm; [|apply Permutation_map, P].
    rewrite (value_counts_total (map snd (visit_freq f))).
    unfold visit_freq, groupby. rewrite !length_map.
    apply group_keys_length.
Qed.

(* ================================================================= *)
(** ** Peak day and hour, lifetime value *)

#[export] Instance day_LabelOk : LabelOk day_name.
Proof.
  intros [] []; split; intros E; try reflexivity; discriminate.
Qed.

(** X12. The revenue-by-day chart has one bar per day name that occurs
    in the frame, so at most seven; the revenue-by-hour chart has one bar
    per hour that occurs in the frame, in ascending order of the hour. *)
Theorem day_and_hour_sales_bars (f : DataFrame) :
  NoDup (map fst (day_sales f)) /\
  (forall d, In d (map fst (day_sales f)) <-> In d (map Day f)) /\
  (List.length (day_sales f) <= 7)%nat /\
  NoDup (map fst (hour_sales f)) /\
  (forall h, In h (map fst (hour_sales f)) <-> In h (map Hour f)) /\
  StronglySorted (fun a b => (a <= b)%nat) (map fst (hour_sales f)).
Proof.
  assert (KD : map fst (day_sales f) = group_keys (map Day f)).
  { unfold day_sales, groupby. rewrite map_map. simpl. apply map_id. }
  assert (KH : map fst (hour_sales f) = group_keys (map Hour f)).
  { unfold hour_sales, groupby. rewrite map_map. simpl. apply map_id. }
  rewrite <- (length_map fst (day_sales f)), KD, KH.
  split; [|split; [|split; [|split; [|split]]]].
  - apply (group_keys_NoDup (map Day f)).
  - intros d. apply (group_keys_In (map Day f) d).
  - change 7%nat with (List.length all_days).
    apply NoDup_incl_length.
    + apply (group_keys_NoDup (map Day f)).
    + intros d _. destruct d; simpl; tauto.
  - apply (group_keys_NoDup (map Hour f)).
  - intros h. apply (group_keys_In (map Hour f) h).
  - unfold group_keys.
    eapply StronglySorted_impl;
      [|apply sort_values_sorted with (le := Nat.leb)].
    + intros x y. apply Nat.leb_le.
    + intros x y. rewrite !Nat.leb_le. lia.
    + intros x y z. rewrite !Nat.leb_le. lia.
Qed.

Lemma clv_length (f : DataFrame) :
  List.length (clv f) = unique_guests f.
Proof.
  unfold clv, groupby. rewrite !length_map. apply group_keys_length.
Qed.

(** X13. The lifetime-value table has one row per distinct guest, each
    with at least one visit, and the average lifetime value is NaN
    exactly when the frame has no rows. *)
Theorem clv_rows (f : DataFrame) :
  List.length (clv f) = unique_guests f /\
  (forall row, In row (clv f) -> (1 <= clv_visits row)%nat) /\
  (average_clv f = NaN <-> f = []).
Proof.
  split; [apply clv_length|]. split.
  - intros row Hrow. unfold clv, groupby in Hrow.
    rewrite map_map in Hrow. apply in_map_iff in Hrow.
    destruct Hrow as (c & <- & Hc). simpl.
    apply (group_keys_In (map Customer_Mobile_No f) c) in Hc.
    apply nunique_pos. intros E. apply map_eq_nil in E.
    exact (rows_with_nonempty Customer_Mobile_No f c Hc E).
  - unfold average_clv, mean. pose proof (clv_length f) as L.
    destruct (map total_spend (clv f)) as [|x l] eqn:E.
    + apply map_eq_nil in E. rewrite E in L. simpl in L.
      split; [intros _|reflexivity].
      symmetry in L. unfold unique_guests in L.
      apply nunique_zero, map_eq_nil in L. exact L.
    + split; [discriminate|]. intros ->. discriminate.
Qed.

(* ================================================================= *)
(** ** The first rows of a sorted table *)

Lemma StronglySorted_app_inv (A : Type) (R : A -> A -> Prop)
  (l1 l2 : list A) :
  StronglySorted R (l1 ++ l2) ->
  StronglySorted R l1 /\ (forall x y, In x l1 -> In y l2 -> R x y).
Proof.
  induction l1 as [|a l1 IH]; simpl; intros S.
  - split; [constructor | intros x y []].
  - inversion S as [|? ? S' F]; subst. destruct (IH S') as [S1 C].
    rewrite Forall_forall in F. split.
    + constructor; [exact S1|]. rewrite Forall_forall.
      intros x Hx. apply F, in_or_app. now left.
    + intros x y [<-|Hx] Hy; [|now apply C].
      apply F, in_or_app. now right.
Qed.

Section TopRows.
Context {A : Type} (le : A -> A -> bool).
Hypothesis le_total : forall x y, le x y = true \/ le y x = true.
Hypothesis le_trans :
  forall x y z, le x y = true -> le y z = true -> le x z = true.

(** [sort_values(...).head(n)]: at most [n] rows, all taken from the
    table, in order, and no row left out comes before a row kept. *)
Lemma head_of_sorted (n : nat) (l : list A) :
  List.length (firstn n (sort_values le l)) = Nat.min n (List.length l) /\
  incl (firstn n (sort_values le l)) l /\
  StronglySorted (fun x y => le x y = true) (firstn n (sort_values le l)) /\
  (forall x y, In x (firstn n (sort_values le l)) -> In y l ->
               ~ In y (firstn n (sort_values le l)) -> le x y = true).
Proof.
  pose proof (sort_values_sorted le le_total le_trans l) as S.
  rewrite <- (firstn_skipn n (sort_values le l)) in S.
  apply StronglySorted_app_inv in S. destruct S as [S1 C].
  split; [|split; [|split]].
  - rewrite length_firstn.
    now rewrite (Permutation_length (sort_values_perm le l)).
  - intros x Hx. apply (sort_values_In le l x).
    rewrite <- (firstn_skipn n (sort_values le l)).
    apply in_or_app. now left.
  - exact S1.
  - intros x y Hx Hy N. apply C; [exact Hx|].
    apply (sort_values_In le l y) in Hy.
    rewrite <- (firstn_skipn n (sort_values le l)) in Hy.
    apply in_app_or in Hy. tauto.
Qed.
End TopRows.

(** X14. The lifetime-value table has 10 rows, or one per guest when
    there are fewer guests; its rows are rows of the per-guest table in
    descending order of total spend, and no guest left out has spent more
    than a guest shown. *)
Theorem top_clv_rows (f : DataFrame) :
  List.length (top_clv f) = Nat.min 10 (unique_guests f) /\
  incl (top_clv f) (clv f) /\
  StronglySorted (fun a b => total_spend b <= total_spend a) (top_clv f) /\
  (forall x y, In x (top_clv f) -> In y (clv f) -> ~ In y (top_clv f) ->
               total_spend y <= total_spend x).
Proof.
  unfold top_clv.
  destruct (@head_of_sorted _
              (fun a b : ClvRow => Qle_bool (total_spend b) (total_spend a)))
    with (n := 10%nat) (l := clv f) as (L & I & S & D).
  - intros x y. rewrite !Qle_bool_iff.
    destruct (Qlt_le_dec (total_spend x) (total_spend y)) as [H|H];
      [right; now apply Qlt_le_weak | now left].
  - intros x y z. rewrite !Qle_bool_iff. intros P Q.
    now apply Qle_trans with (total_spend y).
  - split; [now rewrite L, clv_length|]. split; [exact I|]. split.
    + eapply StronglySorted_impl; [|exact S].
      intros x y. apply Qle_bool_iff.
    + intros x y Hx Hy N. apply Qle_bool_iff. now apply D.
Qed.

(* ================================================================= *)
(** ** Retention, further *)

(** X15. A guest is on neither retention list exactly when the guest's
    latest date is from 8 to 30 days before the latest date of the
    frame. *)
Theorem retention_gap (f : DataFrame) (c : string) (d g : Z) :
  last_visit_is f c d -> max_date_is f g ->
  ((~ In c (map fst (inactive f)) /\ ~ In c (map fst (recent f)))
   <-> (g - 30 <= d < g - 7)%Z).
Proof.
  intros L G. rewrite inactive_In, recent_In. split.
  - intros [NI NR]. split.
    + destruct (Z_lt_le_dec d (g - 30)) as [H|H]; [|exact H].
      destruct NI. now exists d, g.
    + destruct (Z_lt_le_dec d (g - 7)) as [H|H]; [exact H|].
      destruct NR. now exists d, g.
  - intros [H1 H2]. split; intros (d' & g' & L' & G' & T);
      rewrite <- (last_visit_is_unique L L'),
              <- (max_date_is_unique G G') in T; lia.
Qed.

(** Guest D, last seen 15 days before the latest date, is on neither
    list. *)
Lemma retention_gap_witness :
  ~ In "D" (map fst (inactive gap_sample))
  /\ ~ In "D" (map fst (recent gap_sample)).
Proof.
  apply (@retention_gap gap_sample "D" 19798%Z 19813%Z).
  - apply date_max_guest. reflexivity.
  - apply date_max_frame. reflexivity.
  - lia.
Defined.

(* ================================================================= *)
(** ** Brand table and banners, further *)

Lemma nunique_incl (A : Type) `{LabelOk A} (l l' : list A) :
  incl l l' -> (nunique l <= nunique l')%nat.
Proof.
  intros I. unfold nunique. apply NoDup_incl_length.
  - apply (unique_NoDup l).
  - intros x Hx. apply (unique_In l' x), I. now apply (unique_In l x).
Qed.

(** The brand table before it is sorted. *)
Lemma brand_summary_perm (f : DataFrame) :
  Permutation (brand_summary f)
    (map (fun b =>
            {| brand := b;
               Unique_Guests :=
                 nunique (map Customer_Mobile_No
                            (rows_with MenuGroupDescription b f));
               Quantity_Sold :=
                 Qsum (map Quantity (rows_with MenuGroupDescription b f));
               Revenue :=
                 Qsum (map Gross_Amount
                         (rows_with MenuGroupDescription b f)) |})
         (group_keys (map MenuGroupDescription f))).
Proof.
  unfold brand_summary, groupby. rewrite map_map. simpl.
  apply sort_values_perm.
Qed.

Lemma brand_summary_brands (f : DataFrame) :
  Permutation (map brand (brand_summary f))
    (group_keys (map MenuGroupDescription f)).
Proof.
  etransitivity; [apply Permutation_map, brand_summary_perm|].
  rewrite map_map. simpl. now rewrite map_id.
Qed.

Lemma brand_summary_brand_In (f : DataFrame) (b : string) :
  In b (map brand (brand_summary f)) <-> In b (map MenuGroupDescription f).
Proof.
  rewrite <- (group_keys_In (map MenuGroupDescription f) b).
  split; apply Permutation_in;
    [apply brand_summary_brands | symmetry; apply brand_summary_brands].
Qed.

Lemma brand_summary_NoDup (f : DataFrame) :
  NoDup (map brand (brand_summary f)).
Proof.
  eapply Permutation_NoDup; [symmetry; apply brand_summary_brands|].
  apply (group_keys_NoDup (map MenuGroupDescription f)).
Qed.

Lemma NoDup_map_same (A B : Type) (g : A -> B) (l : list A) (x y : A) :
  NoDup (map g l) -> In x l -> In y l -> g x = g y -> x = y.
Proof.
  induction l as [|a l IH]; simpl; [tauto|].
  intros D Hx Hy E. inversion D as [|? ? N D']; subst.
  destruct Hx as [<-|Hx], Hy as [<-|Hy]; auto.
  - destruct N. rewrite E. now apply in_map.
  - destruct N. rewrite <- E. now apply in_map.
Qed.

(** X16. The brand table has exactly one row per distinct brand of the
    frame, and every brand in it was bought by at least one guest and by
    no more guests than the frame has. *)
Theorem brand_summary_rows (f : DataFrame) :
  List.length (brand_summary f) = nunique (map MenuGroupDescription f) /\
  NoDup (map brand (brand_summary f)) /\
  (forall b, In b (map brand (brand_summary f))
             <-> In b (map MenuGroupDescription f)) /\
  (forall row, In row (brand_summary f) ->
     (1 <= Unique_Guests row <= unique_guests f)%nat).
Proof.
  pose proof (brand_summary_perm f) as P.
  split; [|split; [|split]].
  - rewrite (Permutation_length P), length_map. apply group_keys_length.
  - apply brand_summary_NoDup.
  - apply brand_summary_brand_In.
  - intros row Hrow. eapply Permutation_in in Hrow; [|exact P].
    apply in_map_iff in Hrow. destruct Hrow as (b & <- & Hb). simpl.
    apply (group_keys_In (map MenuGroupDescription f) b) in Hb. split.
    + apply nunique_pos. intros E. apply map_eq_nil in E.
      exact (rows_with_nonempty MenuGroupDescription f b Hb E).
    + apply (@nunique_incl string _ _). intros c Hc.
      apply in_map_iff in Hc. destruct Hc as (r & <- & Hr).
      apply filter_In in Hr. apply in_map, Hr.
Qed.

Lemma last_In (A : Type) (l : list A) (d : A) : l <> [] -> In (last l d) l.
Proof.
  induction l as [|x l IH]; [congruence|]. intros _.
  destruct l as [|y l]; [now left|].
  right. apply IH. discriminate.
Qed.

(** X17. Each banner look-up raises IndexError exactly when the frame has
    no rows; when it succeeds the brand it names is a brand of the frame,
    and the brand of the first banner has at least the revenue of the
    brand of the second. *)
Theorem banner_lookups (f : DataFrame) :
  (top_brand f
   = inl (IndexError "single positional indexer is out-of-bounds")
   <-> f = []) /\
  (low_brand f
   = inl (IndexError "single positional indexer is out-of-bounds")
   <-> f = []) /\
  (forall b, top_brand f = inr b \/ low_brand f = inr b ->
             In b (map MenuGroupDescription f)) /\
  (forall top low, In top (brand_summary f) -> In low (brand_summary f) ->
     top_brand f = inr (brand top) -> low_brand f = inr (brand low) ->
     Revenue low <= Revenue top).
Proof.
  destruct f as [|r f].
  - split; [split; reflexivity|]. split; [split; reflexivity|]. split.
    + intros b [H|H]; discriminate.
    + intros top low [].
  - destruct (@brand_rows (r :: f)) as (first & rest & E & T & L);
      [discriminate|].
    pose proof (brand_summary_sorted (r :: f)) as S.
    pose proof (brand_summary_NoDup (r :: f)) as D.
    pose proof (brand_summary_brand_In (r :: f)) as B.
    assert (F : In first (brand_summary (r :: f)))
      by (rewrite E; now left).
    assert (La : In (last (brand_summary (r :: f)) first)
                    (brand_summary (r :: f)))
      by (apply last_In; rewrite E; discriminate).
    rewrite T, L.
    split; [split; discriminate|]. split; [split; discriminate|]. split.
    + intros b [[= <-]|[= <-]]; apply B; now apply in_map.
    + intros top low Ht Hl [= Et] [= El].
      assert (top = first /\ low = last (brand_summary (r :: f)) first)
        as [-> ->].
      { split; eapply (@NoDup_map_same _ _ brand); eauto. }
      rewrite E in S |- *.
      destruct rest as [|x rest]; [apply Qle_refl|].
      inversion S as [|? ? _ Fa]; subst.
      rewrite Forall_forall in Fa. apply Fa.
      change (In (last (x :: rest) first) (x :: rest)).
      apply last_In. discriminate.
Qed.

(* ================================================================= *)
(** ** Guest brand preference *)

Lemma guest_pref_keys (f : DataFrame) :
  map fst (guest_pref f)
  = group_keys (map (fun r => (Customer_Mobile_No r, MenuGroupDescription r))
                    f).
Proof. unfold guest_pref, groupby. rewrite map_map. simpl. apply map_id. Qed.

(** X18. The guest-by-brand order counts have one line per pair of guest
    and brand that occurs in the frame, every line counts at least one
    row, and the counts add up to the number of rows of the frame. *)
Theorem guest_pref_orders (f : DataFrame) :
  NoDup (map fst (guest_pref f)) /\
  (forall c b, In (c, b) (map fst (guest_pref f)) <->
     exists r, In r f /\ Customer_Mobile_No r = c
               /\ MenuGroupDescription r = b) /\
  (forall line, In line (guest_pref f) -> (1 <= snd line)%nat) /\
  list_sum (map snd (guest_pref f)) = List.length f.
Proof.
  set (key := fun r : Row => (Customer_Mobile_No r, MenuGroupDescription r)).
  split; [|split; [|split]].
  - rewrite guest_pref_keys. apply (group_keys_NoDup (map key f)).
  - intros c b. rewrite guest_pref_keys.
    etransitivity; [apply (group_keys_In (map key f) (c, b))|].
    rewrite in_map_iff.
    split; intros (r & H1 & H2); exists r.
    + now injection H1 as <- <-.
    + destruct H2 as [<- <-]. now split.
  - intros line Hl. unfold guest_pref, groupby in Hl.
    apply in_map_iff in Hl. destruct Hl as (k & <- & Hk).
    apply (group_keys_In (map key f) k) in Hk.
    pose proof (rows_with_nonempty key f k Hk) as N.
    change (1 <= List.length (rows_with key k f))%nat.
    destruct (rows_with key k f); [congruence | simpl; lia].
  - unfold guest_pref, groupby. rewrite map_map. simpl.
    apply (@group_sizes_total _ _ _ _ key f (group_keys (map key f))).
    + apply (group_keys_NoDup (map key f)).
    + intros r Hr. apply (group_keys_In (map key f)), in_map, Hr.
Qed.

(** X19. The preference table has 20 lines, or all of them when there are
    fewer; they are lines of the order counts in descending order of
    orders, and no line left out has more orders than a line shown. *)
Theorem top_guest_pref_rows (f : DataFrame) :
  List.length (top_guest_pref f)
  = Nat.min 20 (List.length (guest_pref f)) /\
  incl (top_guest_pref f) (guest_pref f) /\
  StronglySorted (fun a b => (snd b <= snd a)%nat) (top_guest_pref f) /\
  (forall x y, In x (top_guest_pref f) -> In y (guest_pref f) ->
               ~ In y (top_guest_pref f) -> (snd y <= snd x)%nat).
Proof.
  unfold top_guest_pref.
  destruct (@head_of_sorted _
              (fun a b : string * string * nat => Nat.leb (snd b) (snd a)))
    with (n := 20%nat) (l := guest_pref f) as (L & I & S & D).
  - intros x y. rewrite !Nat.leb_le. lia.
  - intros x y z. rewrite !Nat.leb_le. lia.
  - split; [exact L|]. split; [exact I|]. split.
    + eapply StronglySorted_impl; [|exact S].
      intros x y. apply Nat.leb_le.
    + intros x y Hx Hy N. apply Nat.leb_le. now apply D.
Qed.
